(** * Student Management API: the registry handlers of [main.py]

    A shallow embedding of the request handlers of [src/main.py] and the
    properties of the create / read / update / delete life cycle.

    The module-level globals [students_db] and [next_id] become the two fields
    of [state]; every handler is a computation in a small state-and-exception
    monad that keeps whatever state was reached when an exception is raised
    (Python does not roll anything back on [raise]). *)

From Stdlib Require Import ZArith List String Bool Lia Sorted.
Import ListNotations.
Local Open Scope string_scope.
Local Open Scope list_scope.
Local Open Scope Z_scope.

(** ** Python values *)

(** The values a stored dictionary can hold under one of its keys. *)
Inductive pyval : Type :=
| PyNone
| PyInt (z : Z)
| PyStr (s : string).

(** Python's [==] on these values. *)
Definition py_eqb (a b : pyval) : bool :=
  match a, b with
  | PyNone, PyNone => true
  | PyInt x, PyInt y => Z.eqb x y
  | PyStr x, PyStr y => String.eqb x y
  | _, _ => false
  end.

(** [v is not None]. *)
Definition is_not_None (v : pyval) : bool :=
  match v with
  | PyNone => false
  | _ => true
  end.

(** An attribute declared [Optional[str]] or [Optional[int]], seen as the
    Python value the handler reads from it. *)
Definition opt_str (o : option string) : pyval :=
  match o with
  | Some s => PyStr s
  | None => PyNone
  end.

Definition opt_int (o : option Z) : pyval :=
  match o with
  | Some z => PyInt z
  | None => PyNone
  end.

(** ** Data models *)

(** The dictionary literal built by [create_student]: five fixed keys. *)
Module Dict.

Inductive key : Type := k_id | k_name | k_age | k_email | k_course.

Record t : Type := mk {
  id : pyval;
  name : pyval;
  age : pyval;
  email : pyval;
  course : pyval
}.

(** [d[k]] *)
Definition get (k : key) (d : t) : pyval :=
  match k with
  | k_id => id d
  | k_name => name d
  | k_age => age d
  | k_email => email d
  | k_course => course d
  end.

(** [d[k] = v] *)
Definition set (k : key) (v : pyval) (d : t) : t :=
  match k with
  | k_id => mk v (name d) (age d) (email d) (course d)
  | k_name => mk (id d) v (age d) (email d) (course d)
  | k_age => mk (id d) (name d) v (email d) (course d)
  | k_email => mk (id d) (name d) (age d) v (course d)
  | k_course => mk (id d) (name d) (age d) (email d) v
  end.

End Dict.

(** [class StudentCreate(BaseModel)]: four required, typed attributes. *)
Module StudentCreate.

Record t : Type := mk {
  name : string;
  age : Z;
  email : string;
  course : string
}.

End StudentCreate.

(** [class StudentUpdate(BaseModel)]: every attribute is [Optional[...]] with
    default [None]. *)
Module StudentUpdate.

Record t : Type := mk {
  name : option string;
  age : option Z;
  email : option string;
  course : option string
}.

(** One key of the JSON body of a PUT request, before validation. *)
Inductive field (A : Type) : Type :=
| Absent
| Null
| Given (a : A).
Arguments Absent {A}.
Arguments Null {A}.
Arguments Given {A} a.

Record body : Type := mk_body {
  b_name : field string;
  b_age : field Z;
  b_email : field string;
  b_course : field string
}.

(** [Optional[T] = None]: a missing key takes the default [None], and a
    JSON null is accepted and is [None] as well. *)
Definition attribute {A : Type} (f : field A) : option A :=
  match f with
  | Absent => None
  | Null => None
  | Given a => Some a
  end.

Definition parse (b : body) : t :=
  mk (attribute (b_name b)) (attribute (b_age b))
     (attribute (b_email b)) (attribute (b_course b)).

(** The same body with every explicit null dropped. *)
Definition drop_null {A : Type} (f : field A) : field A :=
  match f with
  | Null => Absent
  | _ => f
  end.

Definition without_nulls (b : body) : body :=
  mk_body (drop_null (b_name b)) (drop_null (b_age b))
          (drop_null (b_email b)) (drop_null (b_course b)).

End StudentUpdate.

(** [class Student(BaseModel)], the response model of the student routes:
    the declared attribute types.  How pydantic validates and converts a
    returned dictionary against it is not modelled. *)
Module Student.

Record t : Type := mk {
  id : option Z;
  name : string;
  age : Z;
  email : string;
  course : string
}.

End Student.

(** ** The in-memory database *)

Record state : Type := mk_state {
  students_db : list Dict.t;
  next_id : Z
}.

(** [students_db = []] and [next_id = 1] at import time. *)
Definition init : state := mk_state [] 1.

(** ** Handlers: state and exceptions *)

Inductive HTTPException : Type :=
| mkHTTPException (status_code : Z) (detail : string).

Inductive outcome (A : Type) : Type :=
| Return (a : A)
| Raise (e : HTTPException).
Arguments Return {A} a.
Arguments Raise {A} e.

Definition handler (A : Type) : Type := state -> outcome A * state.

Definition ret {A : Type} (a : A) : handler A :=
  fun st => (Return a, st).

Definition raise {A : Type} (e : HTTPException) : handler A :=
  fun st => (Raise e, st).

Definition bind {A B : Type} (m : handler A) (k : A -> handler B) : handler B :=
  fun st =>
    match m st with
    | (Return a, st') => k a st'
    | (Raise e, st') => (Raise e, st')
    end.

Declare Scope handler_scope.
Delimit Scope handler_scope with handler.
Notation "x <- m ;; k" := (bind m (fun x => k))
  (at level 100, m at next level, right associativity) : handler_scope.
Notation "m ;; k" := (bind m (fun _ => k))
  (at level 100, right associativity) : handler_scope.
Local Open Scope handler_scope.

Definition read_students_db : handler (list Dict.t) :=
  fun st => (Return (students_db st), st).

Definition write_students_db (db : list Dict.t) : handler unit :=
  fun st => (Return tt, mk_state db (next_id st)).

Definition read_next_id : handler Z :=
  fun st => (Return (next_id st), st).

Definition write_next_id (n : Z) : handler unit :=
  fun st => (Return tt, mk_state (students_db st) n).

(** [if c: m] *)
Definition when (c : bool) (m : handler unit) : handler unit :=
  if c then m else ret tt.

(** ** References into the list

    The list holds dictionary objects and the handlers mutate the object they
    found, so a found student is the position of its dictionary in
    [students_db]: assigning through it changes the list element in place. *)

(** [s["id"] == student_id] *)
Definition has_id (student_id : Z) (s : Dict.t) : bool :=
  py_eqb (Dict.id s) (PyInt student_id).

(** [next((s for s in students_db if s["id"] == student_id), None)]: the
    first match in list order, with its position. *)
Fixpoint lookup (student_id : Z) (db : list Dict.t) : option (nat * Dict.t) :=
  match db with
  | [] => None
  | s :: rest =>
      if has_id student_id s then Some (O, s)
      else match lookup student_id rest with
           | Some (i, found) => Some (S i, found)
           | None => None
           end
  end.

(** The list with [f] applied to the element at position [i]. *)
Fixpoint modify_at (i : nat) (f : Dict.t -> Dict.t) (db : list Dict.t) : list Dict.t :=
  match db, i with
  | [], _ => []
  | s :: rest, O => f s :: rest
  | s :: rest, S j => s :: modify_at j f rest
  end.

(** [student[k] = v] for the dictionary at position [ref]. *)
Definition setitem (ref : nat) (k : Dict.key) (v : pyval) : handler unit :=
  fun st => (Return tt, mk_state (modify_at ref (Dict.set k v) (students_db st)) (next_id st)).

(** The present content of the dictionary at position [ref]; [found] is what
    was read when the reference was taken and stands in only for a position
    outside the list, which [lookup] never yields. *)
Definition deref (ref : nat) (found : Dict.t) : handler Dict.t :=
  fun st => (Return (nth ref (students_db st) found), st).

Definition not_found : HTTPException :=
  mkHTTPException 404 "Student not found".

(** ** The handlers *)

(** [read_root] and [health_check] return constant objects. *)
Definition read_root : handler (list (string * string)) :=
  ret [("message", "Welcome to Student Management API"); ("version", "1.0.0")]%string.

Definition health_check : handler (list (string * string)) :=
  ret [("status", "healthy")]%string.

(** [get_students]: the body is [return students_db]; the [request]
    argument is there for the limiter only (see [limited] below). *)
Definition get_students : handler (list Dict.t) :=
  read_students_db.

(** [get_student].  A dictionary with five keys is truthy, so [not student]
    holds exactly when [next] fell back to [None]. *)
Definition get_student (student_id : Z) : handler Dict.t :=
  db <- read_students_db ;;
  match lookup student_id db with
  | None => raise not_found
  | Some (_, student) => ret student
  end.

Definition create_student (student : StudentCreate.t) : handler Dict.t :=
  n <- read_next_id ;;
  let new_student :=
    Dict.mk (PyInt n)
            (PyStr (StudentCreate.name student))
            (PyInt (StudentCreate.age student + 20))
            (PyStr (StudentCreate.email student))
            (PyStr (StudentCreate.course student)) in
  db <- read_students_db ;;
  write_students_db (db ++ [new_student]) ;;
  n' <- read_next_id ;;
  write_next_id (n' + 1) ;;
  ret new_student.

Definition update_student (student_id : Z) (student_update : StudentUpdate.t)
  : handler Dict.t :=
  db <- read_students_db ;;
  match lookup student_id db with
  | None => raise not_found
  | Some (student, found) =>
      let u_name := opt_str (StudentUpdate.name student_update) in
      let u_age := opt_int (StudentUpdate.age student_update) in
      let u_email := opt_str (StudentUpdate.email student_update) in
      let u_course := opt_str (StudentUpdate.course student_update) in
      when (is_not_None u_name) (setitem student Dict.k_name u_name) ;;
      when (is_not_None u_age) (setitem student Dict.k_age u_age) ;;
      when (is_not_None u_email) (setitem student Dict.k_email u_email) ;;
      when (is_not_None u_course) (setitem student Dict.k_course u_course) ;;
      deref student found
  end.

(** [delete_student] rebinds [students_db] to the list without the matching
    dictionaries. *)
Definition delete_student (student_id : Z) : handler unit :=
  db <- read_students_db ;;
  match lookup student_id db with
  | None => raise not_found
  | Some _ =>
      write_students_db (filter (fun s => negb (has_id student_id s)) db) ;;
      ret tt
  end.

(** ** Routes *)

Inductive content : Type :=
| Empty
| Detail (msg : string)
| Object (fields : list (string * string))
| One (student : Dict.t)
| Many (students : list Dict.t)
| Limited.

Record Response : Type := mk_response {
  status : Z;
  body : content
}.

(** A route answers with its declared status code when the handler returns,
    and with the exception's status code and detail when it raises. *)
Definition route {A : Type} (status_code : Z) (render : A -> content)
  (h : handler A) (st : state) : Response * state :=
  match h st with
  | (Return a, st') => (mk_response status_code (render a), st')
  | (Raise (mkHTTPException code detail), st') => (mk_response code (Detail detail), st')
  end.

(** [@limiter.limit("5/minute")] in front of a route.  Whether the calling
    address is over its limit is decided by the slowapi limiter from its own
    clock and counters; here that verdict comes with the request.  Over the
    limit the handler is not called and the answer is 429 (the body that
    slowapi writes is left abstract). *)
Definition limited (over_limit : bool) (r : state -> Response * state)
  : state -> Response * state :=
  fun st => if over_limit then (mk_response 429 Limited, st) else r st.

Inductive request : Type :=
| GET_root
| GET_health
| GET_students (over_limit : bool)
| GET_student (student_id : Z)
| POST_students (student : StudentCreate.t)
| PUT_student (student_id : Z) (student_update : StudentUpdate.t)
| DELETE_student (student_id : Z).

Definition app (rq : request) : state -> Response * state :=
  match rq with
  | GET_root => route 200 Object read_root
  | GET_health => route 200 Object health_check
  | GET_students over_limit => limited over_limit (route 200 Many get_students)
  | GET_student student_id => route 200 One (get_student student_id)
  | POST_students student => route 201 One (create_student student)
  | PUT_student student_id student_update =>
      route 200 One (update_student student_id student_update)
  | DELETE_student student_id => route 204 (fun _ => Empty) (delete_student student_id)
  end.

(** Requests are served one after the other; the log pairs each request
    with its response. *)
Fixpoint run (rqs : list request) (st : state) : list (request * Response) * state :=
  match rqs with
  | [] => ([], st)
  | rq :: rest =>
      let (rs, st') := app rq st in
      let (log, st'') := run rest st' in
      ((rq, rs) :: log, st'')
  end.

Definition reachable (st : state) : Prop :=
  exists rqs, snd (run rqs init) = st.

(** The ids handed out by the create requests of a log, in order. *)
Fixpoint created_ids (log : list (request * Response)) : list pyval :=
  match log with
  | [] => []
  | (POST_students _, mk_response _ (One s)) :: rest => Dict.id s :: created_ids rest
  | _ :: rest => created_ids rest
  end.

Fixpoint count_creates (rqs : list request) : nat :=
  match rqs with
  | [] => O
  | POST_students _ :: rest => S (count_creates rest)
  | _ :: rest => count_creates rest
  end.

(** ** Vocabulary of the properties *)

(** The dictionary that the four guarded assignments of [update_student]
    leave behind. *)
Definition assigned (u : StudentUpdate.t) (s : Dict.t) : Dict.t :=
  let s1 := if is_not_None (opt_str (StudentUpdate.name u))
            then Dict.set Dict.k_name (opt_str (StudentUpdate.name u)) s else s in
  let s2 := if is_not_None (opt_int (StudentUpdate.age u))
            then Dict.set Dict.k_age (opt_int (StudentUpdate.age u)) s1 else s1 in
  let s3 := if is_not_None (opt_str (StudentUpdate.email u))
            then Dict.set Dict.k_email (opt_str (StudentUpdate.email u)) s2 else s2 in
  if is_not_None (opt_str (StudentUpdate.course u))
  then Dict.set Dict.k_course (opt_str (StudentUpdate.course u)) s3 else s3.

(** The integer under ["id"]. *)
Definition id_num (s : Dict.t) : Z :=
  match Dict.id s with
  | PyInt i => i
  | _ => 0
  end.

(** A dictionary whose five values have the types of the response model. *)
Inductive typed : Dict.t -> Prop :=
| typed_intro (i : Z) (n : string) (a : Z) (e c : string) :
    typed (Dict.mk (PyInt i) (PyStr n) (PyInt a) (PyStr e) (PyStr c)).

Record invariant (st : state) : Prop := mk_invariant {
  inv_typed : Forall typed (students_db st);
  inv_sorted : StronglySorted Z.lt (map id_num (students_db st));
  inv_below : Forall (fun s => 1 <= id_num s < next_id st) (students_db st);
  inv_next : 1 <= next_id st
}.

(** Two requests and the state they lead to, for the examples. *)
Definition alice : StudentCreate.t :=
  StudentCreate.mk "Alice Smith" 22 "alice@example.com" "Mathematics".

Definition bob : StudentCreate.t :=
  StudentCreate.mk "Bob Jones" 30 "bob@example.com" "History".

Definition alice_stored : Dict.t :=
  Dict.mk (PyInt 1) (PyStr "Alice Smith") (PyInt 42)
          (PyStr "alice@example.com") (PyStr "Mathematics").

Definition two_students : state :=
  snd (run [POST_students alice; POST_students bob] init).

Definition only_course : StudentUpdate.t :=
  StudentUpdate.mk None None None (Some "Physics").

Definition only_age : StudentUpdate.t :=
  StudentUpdate.mk None (Some 22) None None.

Definition null_name : StudentUpdate.body :=
  StudentUpdate.mk_body StudentUpdate.Null StudentUpdate.Absent
                        StudentUpdate.Absent (StudentUpdate.Given "Physics").

(** ** The tests of [test/test_main.py] *)

(** A test function runs its [assert] statements in order and stops at the
    first one that fails; the number is the position of that statement in
    the function. *)
Inductive verdict : Type :=
| Passed
| AssertionError (nth_assert : nat).

Fixpoint first_failure (n : nat) (asserts : list bool) : verdict :=
  match asserts with
  | [] => Passed
  | true :: rest => first_failure (S n) rest
  | false :: _ => AssertionError n
  end.

(** [==] of two JSON objects with string values: as many pairs, and every
    pair of the one is a pair of the other (keys do not repeat). *)
Definition object_eqb (a b : list (string * string)) : bool :=
  Nat.eqb (List.length a) (List.length b) &&
  forallb (fun kv =>
             existsb (fun kv' => String.eqb (fst kv) (fst kv') &&
                                 String.eqb (snd kv) (snd kv')) b) a.

(** [response.json() == expected] for an expected object. *)
Definition json_is (expected : list (string * string)) (c : content) : bool :=
  match c with
  | Object data => object_eqb data expected
  | _ => false
  end.

(** [data[k]] for the decoded body of a student route; a body that is not
    a student object has no such item and is read as [None]. *)
Definition item (k : Dict.key) (data : content) : pyval :=
  match data with
  | One d => Dict.get k d
  | _ => PyNone
  end.

Definition test_read_root (st : state) : verdict * state :=
  let (response, st') := app GET_root st in
  (first_failure 1
     [Z.eqb (status response) 200;
      json_is [("message", "Welcome to Student Management API");
               ("version", "1.0.0")] (body response)],
   st').

(** The six [assert] statements of [test_create_student], evaluated. *)
Definition test_create_student_asserts (st : state) : list bool :=
  let student_data :=
    StudentCreate.mk "Alice Smith" 22 "alice@example.com" "Mathematics" in
  let response := fst (app (POST_students student_data) st) in
  let data := body response in
  [Z.eqb (status response) 201;
   py_eqb (item Dict.k_name data) (PyStr (StudentCreate.name student_data));
   py_eqb (item Dict.k_age data) (PyInt (StudentCreate.age student_data));
   py_eqb (item Dict.k_email data) (PyStr (StudentCreate.email student_data));
   py_eqb (item Dict.k_course data) (PyStr (StudentCreate.course student_data));
   is_not_None (item Dict.k_id data)].

Definition test_create_student (st : state) : verdict * state :=
  (first_failure 1 (test_create_student_asserts st),
   snd (app (POST_students
               (StudentCreate.mk "Alice Smith" 22 "alice@example.com" "Mathematics"))
            st)).

(** ** Further vocabulary *)

(** The GET requests. *)
Definition is_read (rq : request) : bool :=
  match rq with
  | GET_root | GET_health | GET_students _ | GET_student _ => true
  | _ => false
  end.

(** The dictionary a lookup finds, without its position. *)
Definition stored (student_id : Z) (db : list Dict.t) : option Dict.t :=
  option_map snd (lookup student_id db).

(** Two update bodies as one: the later one wins where it has a value. *)
Definition merge (u1 u2 : StudentUpdate.t) : StudentUpdate.t :=
  let pick {A : Type} (a b : option A) : option A :=
    match b with
    | Some _ => b
    | None => a
    end in
  StudentUpdate.mk
    (pick (StudentUpdate.name u1) (StudentUpdate.name u2))
    (pick (StudentUpdate.age u1) (StudentUpdate.age u2))
    (pick (StudentUpdate.email u1) (StudentUpdate.email u2))
    (pick (StudentUpdate.course u1) (StudentUpdate.course u2)).

(** The body [{}]. *)
Definition no_fields : StudentUpdate.t :=
  StudentUpdate.mk None None None None.

(** The DELETE requests of a log that were answered 204. *)
Fixpoint count_deleted (log : list (request * Response)) : nat :=
  match log with
  | [] => O
  | (DELETE_student _, rs) :: rest =>
      if Z.eqb (status rs) 204 then S (count_deleted rest) else count_deleted rest
  | _ :: rest => count_deleted rest
  end.

(** A response body whose student objects are [typed]: an integer under
    ["id"] and ["age"], a string under ["name"], ["email"] and ["course"]. *)
Definition conforms (c : content) : Prop :=
  match c with
  | One d => typed d
  | Many l => Forall typed l
  | _ => True
  end.

(** ** The limiter in front of the list route *)

(** The seven routes as a client calls them, with validated arguments. *)
Inductive endpoint : Type :=
| Root
| Health
| ListStudents
| GetStudent (student_id : Z)
| CreateStudent (student : StudentCreate.t)
| UpdateStudent (student_id : Z) (student_update : StudentUpdate.t)
| DeleteStudent (student_id : Z).

(** A call as the server receives it: the client address, which is what
    [get_remote_address] reads from the request, the time of arrival in
    seconds, and the route. *)
Record call : Type := mk_call {
  remote_address : string;
  arrival : Z;
  target : endpoint
}.

(** Modelled from the spec: the memory of the slowapi [Limiter], a library
    that is not in src/.  The spec gives its policy as "5 requests per
    minute per client address": what has to be remembered is the address
    and the time of each call to the limited route. *)
Definition hits : Type := list (string * Z).

(** Modelled from the spec: whether a remembered call counts against
    [address] at time [now] ("within 60 seconds from the same client"): it
    came from that address, less than 60 seconds ago. *)
Definition in_last_minute (address : string) (now : Z) (hit : string * Z) : bool :=
  String.eqb (fst hit) address && Z.ltb (now - 60) (snd hit).

(** Modelled from the spec: the count the limiter holds against [address]
    at time [now], the number of its remembered calls that still count. *)
Definition calls_in_last_minute (address : string) (now : Z) (h : hits) : nat :=
  List.length (filter (in_last_minute address now) h).

(** Modelled from the spec: the verdict of the slowapi limiter for
    ["5/minute"] ("Calling /students more than 5 times within 60 seconds
    from the same client returns 429 on the 6th call"): a call is over the
    limit when five calls already count against its address. *)
Definition over_limit (address : string) (now : Z) (h : hits) : bool :=
  Nat.leb 5 (calls_in_last_minute address now h).

(** Modelled from the spec: the limiter remembers every call to the
    limited route, refused or not ("calling more than 5 times"). *)
Definition remember (address : string) (now : Z) (h : hits) : hits :=
  (address, now) :: h.

(** The process: the limiter's memory beside the registry. *)
Record server : Type := mk_server {
  limiter : hits;
  registry : state
}.

Definition start : server := mk_server [] init.

(** A route without the decorator goes to its handler; the limiter is
    neither asked nor told. *)
Definition undecorated (rq : request) (sv : server) : Response * server :=
  let (rs, st) := app rq (registry sv) in
  (rs, mk_server (limiter sv) st).

(** Only [get_students] carries [@limiter.limit("5/minute")]: the limiter
    gives its verdict for the calling address, remembers the call, and the
    route is served under that verdict. *)
Definition serve (c : call) (sv : server) : Response * server :=
  match target c with
  | Root => undecorated GET_root sv
  | Health => undecorated GET_health sv
  | ListStudents =>
      let over := over_limit (remote_address c) (arrival c) (limiter sv) in
      let (rs, st) := app (GET_students over) (registry sv) in
      (rs, mk_server (remember (remote_address c) (arrival c) (limiter sv)) st)
  | GetStudent i => undecorated (GET_student i) sv
  | CreateStudent student => undecorated (POST_students student) sv
  | UpdateStudent i u => undecorated (PUT_student i u) sv
  | DeleteStudent i => undecorated (DELETE_student i) sv
  end.

Fixpoint serve_all (cs : list call) (sv : server) : list (call * Response) * server :=
  match cs with
  | [] => ([], sv)
  | c :: rest =>
      let (rs, sv') := serve c sv in
      let (log, sv'') := serve_all rest sv' in
      ((c, rs) :: log, sv'')
  end.

(** A call to the list route from [address]. *)
Definition is_list_call_from (address : string) (c : call) : bool :=
  match target c with
  | ListStudents => String.eqb (remote_address c) address
  | _ => false
  end.

(** The statuses with which the list calls of [address] were answered, in
    the order of the calls. *)
Definition list_statuses (address : string) (log : list (call * Response)) : list Z :=
  map (fun entry => status (snd entry))
      (filter (fun entry => is_list_call_from address (fst entry)) log).


(** * Properties *)

(** ** Values and lookups *)

Lemma py_eqb_eq (a b : pyval) : py_eqb a b = true <-> a = b.
Proof.
  destruct a, b; simpl; split; intro H; try discriminate; try reflexivity.
  - apply Z.eqb_eq in H. now subst.
  - injection H as ->. apply Z.eqb_refl.
  - apply String.eqb_eq in H. now subst.
  - injection H as ->. apply String.eqb_refl.
Qed.

Lemma has_id_true (i : Z) (s : Dict.t) : has_id i s = true <-> Dict.id s = PyInt i.
Proof. unfold has_id. apply py_eqb_eq. Qed.

Lemma has_id_false (i : Z) (s : Dict.t) : has_id i s = false <-> Dict.id s <> PyInt i.
Proof.
  rewrite <- has_id_true. destruct (has_id i s); split; intro H;
    try reflexivity; try discriminate; congruence.
Qed.

Lemma lookup_None (i : Z) (db : list Dict.t) :
  lookup i db = None <-> (forall s, In s db -> Dict.id s <> PyInt i).
Proof.
  induction db as [|s rest IH]; simpl.
  - split; [intros _ s [] | reflexivity].
  - destruct (has_id i s) eqn:E.
    + split; [discriminate|].
      intro H. apply has_id_true in E. elim (H s (or_introl eq_refl) E).
    + apply has_id_false in E.
      destruct (lookup i rest) as [[r found]|].
      * split; [discriminate|].
        intro H. assert (HN : Some (r, found) = None) by (apply IH; intros x Hx; apply H; now right).
        discriminate.
      * split; [|reflexivity].
        intros _ x [<-|Hx]; [exact E|]. now apply (proj1 IH eq_refl).
Qed.

(** A successful lookup points at the first dictionary with the id. *)
Lemma lookup_Some (i : Z) (db : list Dict.t) (r : nat) (s : Dict.t) :
  lookup i db = Some (r, s) ->
  exists pre post,
    db = pre ++ s :: post /\ List.length pre = r /\ Dict.id s = PyInt i /\
    Forall (fun x => Dict.id x <> PyInt i) pre.
Proof.
  revert r. induction db as [|x rest IH]; simpl; intros r H; [discriminate|].
  destruct (has_id i x) eqn:E.
  - injection H as <- <-. exists [], rest. apply has_id_true in E. now repeat split.
  - destruct (lookup i rest) as [[j found]|] eqn:L; [|discriminate].
    injection H as <- <-.
    destruct (IH j eq_refl) as (pre & post & -> & Hlen & Hid & Hpre).
    exists (x :: pre), post. simpl. repeat split; try congruence.
    constructor; [now apply has_id_false | exact Hpre].
Qed.

Lemma lookup_split (i : Z) (pre post : list Dict.t) (s : Dict.t) :
  Forall (fun x => Dict.id x <> PyInt i) pre ->
  Dict.id s = PyInt i ->
  lookup i (pre ++ s :: post) = Some (List.length pre, s).
Proof.
  intros Hpre Hs. induction Hpre as [|x pre Hx _ IH]; simpl.
  - apply has_id_true in Hs. now rewrite Hs.
  - apply has_id_false in Hx. now rewrite Hx, IH.
Qed.

Lemma lookup_exists (i : Z) (db : list Dict.t) :
  (exists s, In s db /\ Dict.id s = PyInt i) -> exists r s, lookup i db = Some (r, s).
Proof.
  intros (s & Hin & Hid). destruct (lookup i db) as [[r found]|] eqn:L.
  - now exists r, found.
  - elim (proj1 (lookup_None i db) L s Hin Hid).
Qed.

Lemma modify_at_split (f : Dict.t -> Dict.t) (pre post : list Dict.t) (s : Dict.t) :
  modify_at (List.length pre) f (pre ++ s :: post) = pre ++ f s :: post.
Proof. induction pre as [|x pre IH]; simpl; [reflexivity | now rewrite IH]. Qed.

Lemma nth_split (pre post : list Dict.t) (s d : Dict.t) :
  nth (List.length pre) (pre ++ s :: post) d = s.
Proof. induction pre as [|x pre IH]; simpl; [reflexivity | exact IH]. Qed.

(** ** The handlers, computed *)

Lemma get_student_eq (i : Z) (st : state) :
  get_student i st =
  match lookup i (students_db st) with
  | Some (_, s) => (Return s, st)
  | None => (Raise not_found, st)
  end.
Proof.
  unfold get_student, bind, read_students_db.
  now destruct (lookup i (students_db st)) as [[r s]|].
Qed.

Lemma create_student_eq (c : StudentCreate.t) (st : state) :
  let new_student :=
    Dict.mk (PyInt (next_id st)) (PyStr (StudentCreate.name c))
            (PyInt (StudentCreate.age c + 20))
            (PyStr (StudentCreate.email c)) (PyStr (StudentCreate.course c)) in
  create_student c st =
  (Return new_student, mk_state (students_db st ++ [new_student]) (next_id st + 1)).
Proof. reflexivity. Qed.

Lemma delete_student_eq (i : Z) (st : state) :
  delete_student i st =
  match lookup i (students_db st) with
  | Some _ =>
      (Return tt,
       mk_state (filter (fun s => negb (has_id i s)) (students_db st)) (next_id st))
  | None => (Raise not_found, st)
  end.
Proof.
  unfold delete_student, bind, read_students_db.
  now destruct (lookup i (students_db st)) as [[r s]|].
Qed.


Lemma when_setitem (c : bool) (k : Dict.key) (v : pyval)
  (pre post : list Dict.t) (s : Dict.t) (n : Z) :
  when c (setitem (List.length pre) k v) (mk_state (pre ++ s :: post) n) =
  (Return tt, mk_state (pre ++ (if c then Dict.set k v s else s) :: post) n).
Proof.
  destruct c; simpl; [|reflexivity].
  unfold setitem. simpl. now rewrite modify_at_split.
Qed.

Lemma update_student_found (i : Z) (u : StudentUpdate.t)
  (pre post : list Dict.t) (s : Dict.t) (n : Z) :
  lookup i (pre ++ s :: post) = Some (List.length pre, s) ->
  update_student i u (mk_state (pre ++ s :: post) n) =
  (Return (assigned u s), mk_state (pre ++ assigned u s :: post) n).
Proof.
  intro L. unfold update_student, bind at 1, read_students_db. simpl. rewrite L.
  unfold bind. rewrite !when_setitem. unfold deref. simpl.
  rewrite nth_split. reflexivity.
Qed.

Lemma update_student_missing (i : Z) (u : StudentUpdate.t) (st : state) :
  lookup i (students_db st) = None ->
  update_student i u st = (Raise not_found, st).
Proof.
  intro L. unfold update_student, bind, read_students_db. now rewrite L.
Qed.

Lemma update_student_eq (i : Z) (u : StudentUpdate.t) (st : state) :
  update_student i u st =
  match lookup i (students_db st) with
  | Some (r, s) =>
      (Return (assigned u s),
       mk_state (modify_at r (assigned u) (students_db st)) (next_id st))
  | None => (Raise not_found, st)
  end.
Proof.
  destruct (lookup i (students_db st)) as [[r s]|] eqn:L.
  - destruct (lookup_Some _ _ _ _ L) as (pre & post & Hdb & <- & _ & _).
    destruct st as [db n]. simpl in *. subst db.
    rewrite (update_student_found i u pre post s n L).
    now rewrite modify_at_split.
  - now apply update_student_missing.
Qed.

Lemma assigned_id (u : StudentUpdate.t) (s : Dict.t) :
  Dict.id (assigned u s) = Dict.id s.
Proof.
  destruct u as [[n|] [a|] [e|] [c|]]; reflexivity.
Qed.

(** ** The invariant of the reachable states *)

Section ListFacts.

Variables (A : Type) (f : A -> Z).

Lemma sorted_snoc (l : list A) (x : A) :
  StronglySorted Z.lt (map f l) ->
  Forall (fun y => f y < f x) l ->
  StronglySorted Z.lt (map f (l ++ [x])).
Proof.
  induction l as [|y l IH]; simpl; intros Hs Hb.
  - repeat constructor.
  - apply StronglySorted_inv in Hs as [Hs Hy].
    apply Forall_cons_iff in Hb as [Hyx Hb].
    constructor; [now apply IH|].
    rewrite map_app. apply Forall_app. split; [exact Hy|].
    simpl. now repeat constructor.
Qed.

Lemma sorted_filter (p : A -> bool) (l : list A) :
  StronglySorted Z.lt (map f l) ->
  StronglySorted Z.lt (map f (filter p l)).
Proof.
  induction l as [|y l IH]; simpl; intro Hs; [constructor|].
  apply StronglySorted_inv in Hs as [Hs Hy].
  destruct (p y); simpl; [|now apply IH].
  constructor; [now apply IH|].
  apply Forall_forall. intros z Hz.
  apply in_map_iff in Hz as (w & <- & Hw).
  apply filter_In in Hw as [Hw _].
  rewrite Forall_forall in Hy. apply Hy. now apply in_map.
Qed.

Lemma sorted_NoDup (l : list Z) : StronglySorted Z.lt l -> NoDup l.
Proof.
  induction 1 as [|a l _ IH Ha]; constructor; [|exact IH].
  intro Hin. rewrite Forall_forall in Ha. specialize (Ha a Hin). lia.
Qed.

End ListFacts.

Lemma modify_at_map (B : Type) (g : Dict.t -> B) (f : Dict.t -> Dict.t)
  (r : nat) (db : list Dict.t) :
  (forall s, g (f s) = g s) ->
  map g (modify_at r f db) = map g db.
Proof.
  intro Hg. revert r. induction db as [|x rest IH]; intros [|j]; simpl;
    try reflexivity; [now rewrite Hg | now rewrite IH].
Qed.

Lemma modify_at_Forall (P : Dict.t -> Prop) (f : Dict.t -> Dict.t)
  (r : nat) (db : list Dict.t) :
  (forall s, P s -> P (f s)) ->
  Forall P db -> Forall P (modify_at r f db).
Proof.
  intros Hf H. revert r. induction H as [|x rest Hx Hrest IH]; intros [|j]; simpl;
    constructor; auto.
Qed.

Lemma assigned_typed (u : StudentUpdate.t) (s : Dict.t) :
  typed s -> typed (assigned u s).
Proof.
  intros [i n a e c]. destruct u as [[un|] [ua|] [ue|] [uc|]]; constructor.
Qed.

Lemma assigned_id_num (u : StudentUpdate.t) (s : Dict.t) :
  id_num (assigned u s) = id_num s.
Proof. unfold id_num. now rewrite assigned_id. Qed.

Lemma typed_id (s : Dict.t) : typed s -> Dict.id s = PyInt (id_num s).
Proof. now intros []. Qed.

Lemma invariant_init : invariant init.
Proof. split; simpl; try constructor. lia. Qed.

Lemma invariant_create (c : StudentCreate.t) (st : state) :
  invariant st -> invariant (snd (create_student c st)).
Proof.
  intros [Ht Hs Hb Hn]. rewrite create_student_eq. simpl. split; simpl.
  - apply Forall_app. split; [exact Ht | repeat constructor].
  - apply sorted_snoc; [exact Hs|].
    eapply Forall_impl; [|exact Hb]. intros y Hy. unfold id_num at 2. simpl in *. lia.
  - apply Forall_app. split.
    + eapply Forall_impl; [|exact Hb]. intros y Hy. simpl in Hy. lia.
    + repeat constructor; unfold id_num; simpl; lia.
  - lia.
Qed.

Lemma invariant_update (i : Z) (u : StudentUpdate.t) (st : state) :
  invariant st -> invariant (snd (update_student i u st)).
Proof.
  intros [Ht Hs Hb Hn]. rewrite update_student_eq.
  destruct (lookup i (students_db st)) as [[r s]|]; [|now split].
  split; simpl.
  - apply modify_at_Forall; [apply assigned_typed | exact Ht].
  - rewrite modify_at_map; [exact Hs | apply assigned_id_num].
  - apply modify_at_Forall; [|exact Hb].
    intros x Hx. now rewrite assigned_id_num.
  - exact Hn.
Qed.

Lemma invariant_delete (i : Z) (st : state) :
  invariant st -> invariant (snd (delete_student i st)).
Proof.
  intros [Ht Hs Hb Hn]. rewrite delete_student_eq.
  destruct (lookup i (students_db st)) as [[r s]|]; [|now split].
  split; simpl.
  - apply Forall_forall. intros x Hx. apply filter_In in Hx as [Hx _].
    rewrite Forall_forall in Ht. now apply Ht.
  - now apply sorted_filter.
  - apply Forall_forall. intros x Hx. apply filter_In in Hx as [Hx _].
    rewrite Forall_forall in Hb. now apply Hb.
  - exact Hn.
Qed.

(** What a route does to the state is what its handler does. *)
Lemma route_state (A : Type) (code : Z) (render : A -> content)
  (h : handler A) (st : state) :
  snd (route code render h st) = snd (h st).
Proof.
  unfold route. destruct (h st) as [[a|[c d]] st']; reflexivity.
Qed.

Lemma app_state (rq : request) (st : state) :
  snd (app rq st) =
  match rq with
  | GET_root | GET_health | GET_students _ => st
  | GET_student i => snd (get_student i st)
  | POST_students c => snd (create_student c st)
  | PUT_student i u => snd (update_student i u st)
  | DELETE_student i => snd (delete_student i st)
  end.
Proof.
  destruct rq as [| |[|]| | | |]; cbn [app]; unfold limited;
    try rewrite route_state; reflexivity.
Qed.

Lemma invariant_app (rq : request) (st : state) :
  invariant st -> invariant (snd (app rq st)).
Proof.
  intro H. rewrite app_state; destruct rq.
  - exact H.
  - exact H.
  - exact H.
  - rewrite get_student_eq.
    now destruct (lookup student_id (students_db st)) as [[r s]|].
  - now apply invariant_create.
  - now apply invariant_update.
  - now apply invariant_delete.
Qed.

Lemma run_cons (rq : request) (rest : list request) (st : state) :
  run (rq :: rest) st =
  ((rq, fst (app rq st)) :: fst (run rest (snd (app rq st))),
   snd (run rest (snd (app rq st)))).
Proof.
  simpl. destruct (app rq st) as [rs st']. simpl.
  now destruct (run rest st') as [log st''].
Qed.

Lemma invariant_run (rqs : list request) (st : state) :
  invariant st -> invariant (snd (run rqs st)).
Proof.
  revert st. induction rqs as [|rq rest IH]; intros st H; [exact H|].
  rewrite run_cons. simpl. apply IH. now apply invariant_app.
Qed.

Lemma reachable_invariant (st : state) : reachable st -> invariant st.
Proof.
  intros [rqs <-]. apply invariant_run, invariant_init.
Qed.

Lemma NoDup_map_inj (A B : Type) (g : A -> B) (l : list A) :
  (forall x y, g x = g y -> x = y) -> NoDup l -> NoDup (map g l).
Proof.
  intro Hg. induction 1 as [|x l Hx _ IH]; simpl; constructor; [|exact IH].
  intro Hin. apply in_map_iff in Hin as (y & Hy & Hin).
  apply Hg in Hy. now subst y.
Qed.

Lemma NoDup_PyInt (l : list Z) : NoDup l -> NoDup (map PyInt l).
Proof. apply NoDup_map_inj. intros x y H. now injection H. Qed.

Lemma invariant_NoDup (st : state) :
  invariant st -> NoDup (map Dict.id (students_db st)).
Proof.
  intros [Ht Hs _ _].
  assert (E : map Dict.id (students_db st) = map PyInt (map id_num (students_db st))).
  { rewrite map_map. apply map_ext_in. intros s Hs'.
    rewrite Forall_forall in Ht. now apply typed_id, Ht. }
  rewrite E. now apply NoDup_PyInt, sorted_NoDup.
Qed.

(** In a list without repeated ids, a dictionary with id [i] is the only
    one, so it is the one every lookup of [i] finds. *)
Lemma unique_split (db : list Dict.t) (s : Dict.t) (i : Z) :
  NoDup (map Dict.id db) -> In s db -> Dict.id s = PyInt i ->
  exists pre post,
    db = pre ++ s :: post /\
    Forall (fun x => Dict.id x <> PyInt i) pre /\
    Forall (fun x => Dict.id x <> PyInt i) post.
Proof.
  intros Hnd Hin Hid. destruct (in_split _ _ Hin) as (pre & post & ->).
  exists pre, post. rewrite map_app in Hnd. simpl in Hnd.
  apply NoDup_remove_2 in Hnd. rewrite Hid in Hnd.
  split; [reflexivity|].
  split; apply Forall_forall; intros x Hx E; apply Hnd, in_or_app;
    [left | right]; rewrite <- E; now apply in_map.
Qed.

Lemma update_student_split (i : Z) (u : StudentUpdate.t)
  (pre post : list Dict.t) (s : Dict.t) (n : Z) :
  Forall (fun x => Dict.id x <> PyInt i) pre ->
  Dict.id s = PyInt i ->
  update_student i u (mk_state (pre ++ s :: post) n) =
  (Return (assigned u s), mk_state (pre ++ assigned u s :: post) n).
Proof.
  intros Hpre Hid. apply update_student_found. now apply lookup_split.
Qed.

Lemma route_Return (A : Type) (code : Z) (render : A -> content)
  (h : handler A) (st : state) (a : A) :
  fst (h st) = Return a ->
  fst (route code render h st) = mk_response code (render a).
Proof.
  unfold route. destruct (h st) as [[x|[c d]] st']; simpl; intro H;
    [now injection H as -> | discriminate].
Qed.

(** ** Create *)

(** C1. For every create request, [create_student] appends and returns a
    dictionary whose age is the submitted age plus 20; that age is never the
    submitted one, the other three attributes are stored as sent, and the
    route answers 201 with that dictionary. *)
Theorem create_student_age_plus_20 (student : StudentCreate.t) (st : state) :
  exists new_student,
    create_student student st =
      (Return new_student,
       mk_state (students_db st ++ [new_student]) (next_id st + 1)) /\
    fst (app (POST_students student) st) = mk_response 201 (One new_student) /\
    Dict.age new_student = PyInt (StudentCreate.age student + 20) /\
    Dict.age new_student <> PyInt (StudentCreate.age student) /\
    Dict.name new_student = PyStr (StudentCreate.name student) /\
    Dict.email new_student = PyStr (StudentCreate.email student) /\
    Dict.course new_student = PyStr (StudentCreate.course student).
Proof.
  eexists. split; [apply create_student_eq|].
  split; [reflexivity|]. simpl. repeat split.
  intro H. injection H as H. lia.
Qed.

(** The request of the repository's test: age 22 comes back as 42. *)
Example create_student_22 :
  fst (app (POST_students
              (StudentCreate.mk "Alice Smith" 22 "alice@example.com" "Mathematics"))
           init) =
  mk_response 201
    (One (Dict.mk (PyInt 1) (PyStr "Alice Smith") (PyInt 42)
                  (PyStr "alice@example.com") (PyStr "Mathematics"))).
Proof. reflexivity. Qed.

(** ** Update *)

(** C2. When the id exists and the request carries an age, [update_student]
    returns a dictionary with exactly that age (nothing is added to it), the
    same dictionary is what a later [get_student] of the id reads, and the
    route answers 200 with it. *)
Theorem update_student_age_verbatim
  (i : Z) (u : StudentUpdate.t) (a : Z) (st : state) :
  StudentUpdate.age u = Some a ->
  (exists s, In s (students_db st) /\ Dict.id s = PyInt i) ->
  exists s',
    fst (update_student i u st) = Return s' /\
    Dict.age s' = PyInt a /\
    fst (get_student i (snd (update_student i u st))) = Return s' /\
    fst (app (PUT_student i u) st) = mk_response 200 (One s').
Proof.
  intros Ha Hex. destruct (lookup_exists _ _ Hex) as (r & s & L).
  destruct (lookup_Some _ _ _ _ L) as (pre & post & Hdb & _ & Hid & Hpre).
  destruct st as [db n]. simpl in *. subst db.
  pose proof (update_student_split i u pre post s n Hpre Hid) as E.
  exists (assigned u s). split; [now rewrite E|].
  split.
  { destruct u as [un ua ue uc]. simpl in Ha. subst ua.
    destruct un, ue, uc; reflexivity. }
  split.
  - rewrite E. simpl. rewrite get_student_eq. simpl.
    rewrite lookup_split; [reflexivity | exact Hpre |].
    now rewrite assigned_id.
  - cbn [app]. apply route_Return. now rewrite E.
Qed.

(** C4. In a reachable state, updating an existing student rewrites its
    dictionary in place: each of the four attributes takes the value sent
    for it, or keeps its value when none was sent; the id stays; the
    dictionaries before and after it in the list, and the counter, are
    untouched. *)
Theorem update_student_partial
  (i : Z) (u : StudentUpdate.t) (s : Dict.t) (st : state) :
  reachable st ->
  In s (students_db st) ->
  Dict.id s = PyInt i ->
  exists pre post s',
    students_db st = pre ++ s :: post /\
    update_student i u st =
      (Return s', mk_state (pre ++ s' :: post) (next_id st)) /\
    Dict.id s' = Dict.id s /\
    Dict.name s' = match StudentUpdate.name u with
                   | Some v => PyStr v
                   | None => Dict.name s
                   end /\
    Dict.age s' = match StudentUpdate.age u with
                  | Some v => PyInt v
                  | None => Dict.age s
                  end /\
    Dict.email s' = match StudentUpdate.email u with
                    | Some v => PyStr v
                    | None => Dict.email s
                    end /\
    Dict.course s' = match StudentUpdate.course u with
                     | Some v => PyStr v
                     | None => Dict.course s
                     end.
Proof.
  intros Hr Hin Hid.
  apply reachable_invariant, invariant_NoDup in Hr.
  destruct (unique_split _ _ _ Hr Hin Hid) as (pre & post & Hdb & Hpre & _).
  exists pre, post, (assigned u s). split; [exact Hdb|].
  destruct st as [db n]. simpl in *. subst db.
  split; [now apply update_student_split|].
  destruct u as [[un|] [ua|] [ue|] [uc|]]; repeat split.
Qed.

(** ** Get *)

(** C5. [get_student] never changes the state.  What it returns is a stored
    dictionary with the requested id, it returns one whenever one is
    stored, and it raises exactly when none is; the only exception it
    raises is 404 "Student not found", which is also what the route
    answers. *)
Theorem get_student_spec (i : Z) (st : state) :
  snd (get_student i st) = st /\
  (forall s, fst (get_student i st) = Return s ->
             In s (students_db st) /\ Dict.id s = PyInt i) /\
  ((exists s, In s (students_db st) /\ Dict.id s = PyInt i) ->
   exists s, fst (get_student i st) = Return s /\
             fst (app (GET_student i) st) = mk_response 200 (One s)) /\
  (fst (get_student i st) = Raise (mkHTTPException 404 "Student not found") <->
   forall s, In s (students_db st) -> Dict.id s <> PyInt i) /\
  (forall e, fst (get_student i st) = Raise e ->
             e = mkHTTPException 404 "Student not found" /\
             fst (app (GET_student i) st) =
               mk_response 404 (Detail "Student not found")).
Proof.
  cbn [app]. unfold route. rewrite get_student_eq.
  destruct (lookup i (students_db st)) as [[r s]|] eqn:L; simpl.
  - destruct (lookup_Some _ _ _ _ L) as (pre & post & Hdb & _ & Hid & _).
    split; [reflexivity|]. split.
    { intros x Hx. injection Hx as <-. split; [|exact Hid].
      rewrite Hdb. apply in_or_app. right. now left. }
    split; [intros _; now exists s|].
    split; [|discriminate].
    split; [discriminate|].
    intro H. elim (H s); [|exact Hid].
    rewrite Hdb. apply in_or_app. right. now left.
  - pose proof (proj1 (lookup_None i (students_db st)) L) as Hno.
    split; [reflexivity|]. split; [discriminate|].
    split. { intros (s & Hin & Hid). elim (Hno s Hin Hid). }
    split; [now split|].
    intros e He. injection He as <-. now split.
Qed.

Example get_student_9999 :
  app (GET_student 9999) init = (mk_response 404 (Detail "Student not found"), init).
Proof. reflexivity. Qed.

(** ** Delete *)

Lemma filter_keeps (i : Z) (l : list Dict.t) :
  Forall (fun x => Dict.id x <> PyInt i) l ->
  filter (fun s => negb (has_id i s)) l = l.
Proof.
  induction 1 as [|x l Hx _ IH]; simpl; [reflexivity|].
  apply has_id_false in Hx. rewrite Hx. simpl. now rewrite IH.
Qed.

Lemma filter_split (i : Z) (pre post : list Dict.t) (s : Dict.t) :
  Forall (fun x => Dict.id x <> PyInt i) pre ->
  Forall (fun x => Dict.id x <> PyInt i) post ->
  Dict.id s = PyInt i ->
  filter (fun s => negb (has_id i s)) (pre ++ s :: post) = pre ++ post.
Proof.
  intros Hpre Hpost Hid. rewrite filter_app. simpl.
  apply has_id_true in Hid. rewrite Hid. simpl.
  now rewrite !filter_keeps.
Qed.

(** An id below the counter that is not stored stays away, whatever
    request comes next: creating hands out the counter, updating keeps the
    ids, deleting only removes. *)
Lemma absent_app (i : Z) (rq : request) (st : state) :
  i < next_id st ->
  lookup i (students_db st) = None ->
  i < next_id (snd (app rq st)) /\
  lookup i (students_db (snd (app rq st))) = None.
Proof.
  intros Hlt Habs. rewrite app_state; destruct rq.
  - now split.
  - now split.
  - now split.
  - rewrite get_student_eq.
    now destruct (lookup student_id (students_db st)) as [[r s]|].
  - rewrite create_student_eq. simpl. split; [lia|].
    apply lookup_None. intros s Hin. apply in_app_or in Hin as [Hin|[<-|[]]].
    + now apply (proj1 (lookup_None i _) Habs).
    + simpl. intro E. injection E as E. lia.
  - rewrite update_student_eq.
    destruct (lookup student_id (students_db st)) as [[r s]|]; [|now split].
    simpl. split; [exact Hlt|].
    apply lookup_None. intros x Hin E.
    assert (Hx : In (Dict.id x) (map Dict.id (students_db st))).
    { rewrite <- (modify_at_map _ Dict.id (assigned student_update) r);
        [now apply in_map | apply assigned_id]. }
    apply in_map_iff in Hx as (y & Hy & Hin').
    apply (proj1 (lookup_None i _) Habs y Hin'). congruence.
  - rewrite delete_student_eq.
    destruct (lookup student_id (students_db st)) as [[r s]|]; [|now split].
    simpl. split; [exact Hlt|].
    apply lookup_None. intros x Hin. apply filter_In in Hin as [Hin _].
    now apply (proj1 (lookup_None i _) Habs).
Qed.

Lemma absent_run (i : Z) (rqs : list request) (st : state) :
  i < next_id st ->
  lookup i (students_db st) = None ->
  lookup i (students_db (snd (run rqs st))) = None.
Proof.
  revert st. induction rqs as [|rq rest IH]; intros st Hlt Habs; [exact Habs|].
  rewrite run_cons. simpl.
  destruct (absent_app i rq st Hlt Habs) as [Hlt' Habs']. now apply IH.
Qed.

(** C6. In a reachable state, [delete_student] raises 404 and changes
    nothing when no stored dictionary has the id.  Otherwise it returns
    [None] (the route answers 204 with an empty body), the list loses that
    one dictionary and nothing else, the counter stays, and [get_student] of
    the id raises 404 right after and after any further requests. *)
Theorem delete_student_spec (i : Z) (st : state) :
  reachable st ->
  ((forall s, In s (students_db st) -> Dict.id s <> PyInt i) ->
   delete_student i st = (Raise (mkHTTPException 404 "Student not found"), st) /\
   fst (app (DELETE_student i) st) = mk_response 404 (Detail "Student not found")) /\
  (forall s, In s (students_db st) -> Dict.id s = PyInt i ->
   exists pre post,
     students_db st = pre ++ s :: post /\
     delete_student i st = (Return tt, mk_state (pre ++ post) (next_id st)) /\
     fst (app (DELETE_student i) st) = mk_response 204 Empty /\
     (forall x, In x (pre ++ post) -> Dict.id x <> PyInt i) /\
     fst (get_student i (snd (delete_student i st))) = Raise not_found /\
     forall rqs,
       fst (get_student i (snd (run rqs (snd (delete_student i st))))) =
       Raise not_found).
Proof.
  intro Hr. apply reachable_invariant in Hr. split.
  - intro Hno. apply lookup_None in Hno.
    cbn [app]. unfold route. rewrite delete_student_eq, Hno. now split.
  - intros s Hin Hid.
    destruct (unique_split _ _ _ (invariant_NoDup _ Hr) Hin Hid)
      as (pre & post & Hdb & Hpre & Hpost).
    exists pre, post. split; [exact Hdb|].
    assert (L : lookup i (students_db st) = Some (List.length pre, s))
      by (rewrite Hdb; now apply lookup_split).
    assert (E : delete_student i st =
                (Return tt, mk_state (pre ++ post) (next_id st))).
    { rewrite delete_student_eq, L. rewrite Hdb at 1.
      now rewrite filter_split. }
    assert (Hall : Forall (fun x => Dict.id x <> PyInt i) (pre ++ post))
      by (apply Forall_app; now split).
    assert (Habs : lookup i (pre ++ post) = None)
      by (apply lookup_None; now apply Forall_forall).
    assert (Hlt : i < next_id st).
    { pose proof (inv_below _ Hr) as Hb. rewrite Forall_forall in Hb.
      specialize (Hb s Hin). unfold id_num in Hb. rewrite Hid in Hb. lia. }
    split; [exact E|].
    split; [cbn [app]; unfold route; now rewrite E|].
    split; [now apply Forall_forall|].
    rewrite E. simpl. split.
    + rewrite get_student_eq. simpl. now rewrite Habs.
    + intro rqs. rewrite get_student_eq.
      now rewrite (absent_run i rqs (mk_state (pre ++ post) (next_id st)) Hlt Habs).
Qed.

(** ** List *)

(** C7. [get_students] returns the whole list as it stands, never raises
    and changes nothing (the route, when the limiter lets the request
    through, answers 200 with it).  The list is in
    insertion order: [create_student] appends at the end,
    [update_student] keeps every position, [delete_student] keeps the
    others in their order, so that after any requests the stored ids are
    strictly increasing, which is the order of their creation. *)
Theorem get_students_insertion_order (st : state) :
  get_students st = (Return (students_db st), st) /\
  app (GET_students false) st = (mk_response 200 (Many (students_db st)), st) /\
  (forall c, exists new_student,
     fst (create_student c st) = Return new_student /\
     students_db (snd (create_student c st)) = students_db st ++ [new_student]) /\
  (forall i u,
     map Dict.id (students_db (snd (update_student i u st))) =
     map Dict.id (students_db st)) /\
  (forall i,
     students_db (snd (delete_student i st)) =
     filter (fun s => negb (has_id i s)) (students_db st)) /\
  (forall rqs,
     StronglySorted Z.lt (map id_num (students_db (snd (run rqs init)))) /\
     Forall (fun s => Dict.id s = PyInt (id_num s))
            (students_db (snd (run rqs init)))).
Proof.
  split; [reflexivity|]. split; [reflexivity|].
  split. { intro c. eexists. rewrite create_student_eq. now split. }
  split.
  { intros i u. rewrite update_student_eq.
    destruct (lookup i (students_db st)) as [[r s]|]; [|reflexivity].
    simpl. apply modify_at_map, assigned_id. }
  split.
  { intro i. rewrite delete_student_eq.
    destruct (lookup i (students_db st)) as [[r s]|] eqn:L; [reflexivity|].
    simpl. symmetry. apply filter_keeps, Forall_forall.
    now apply lookup_None. }
  intro rqs. pose proof (invariant_run rqs init invariant_init) as [Ht Hs _ _].
  split; [exact Hs|].
  eapply Forall_impl; [|exact Ht]. intros s. apply typed_id.
Qed.

(** ** Ids *)

Lemma app_next_id (rq : request) (st : state) :
  next_id (snd (app rq st)) =
  match rq with
  | POST_students _ => next_id st + 1
  | _ => next_id st
  end.
Proof.
  rewrite app_state; destruct rq; try reflexivity.
  - rewrite get_student_eq.
    now destruct (lookup student_id (students_db st)) as [[r s]|].
  - rewrite update_student_eq.
    now destruct (lookup student_id (students_db st)) as [[r s]|].
  - rewrite delete_student_eq.
    now destruct (lookup student_id (students_db st)) as [[r s]|].
Qed.

Lemma app_POST (c : StudentCreate.t) (st : state) :
  app (POST_students c) st =
  let new_student :=
    Dict.mk (PyInt (next_id st)) (PyStr (StudentCreate.name c))
            (PyInt (StudentCreate.age c + 20))
            (PyStr (StudentCreate.email c)) (PyStr (StudentCreate.course c)) in
  (mk_response 201 (One new_student),
   mk_state (students_db st ++ [new_student]) (next_id st + 1)).
Proof. reflexivity. Qed.

(** From any state, the creates of a request sequence receive the counter,
    the counter plus one, and so on. *)
Lemma created_ids_from (rqs : list request) (st : state) :
  created_ids (fst (run rqs st)) =
    map (fun k => PyInt (next_id st + Z.of_nat k)) (seq 0 (count_creates rqs)) /\
  next_id (snd (run rqs st)) = next_id st + Z.of_nat (count_creates rqs).
Proof.
  revert st. induction rqs as [|rq rest IH]; intro st.
  - simpl. split; [reflexivity | lia].
  - rewrite run_cons. cbn [fst snd].
    destruct (IH (snd (app rq st))) as [IHc IHn].
    rewrite IHn. clear IHn.
    destruct rq;
      try (cbn [created_ids count_creates]; rewrite IHc, app_next_id; now split).
    rewrite app_POST in *. cbv zeta in *. cbn [fst snd created_ids count_creates] in *.
    rewrite IHc. cbn [next_id seq map Dict.id].
    split; [|lia].
    f_equal; [f_equal; lia|].
    rewrite <- seq_shift, map_map. apply map_ext. intro k. f_equal. lia.
Qed.

(** C3. Whatever requests are served from the start, the ids handed out by
    the creates are 1, 2, 3, ... in that order, one per create; none is
    handed out twice, whatever was deleted in between; the stored ids are
    pairwise different; and every stored id is one that a create handed
    out. *)
Theorem ids_sequential (rqs : list request) :
  created_ids (fst (run rqs init)) =
    map (fun k => PyInt (Z.of_nat k)) (seq 1 (count_creates rqs)) /\
  NoDup (created_ids (fst (run rqs init))) /\
  NoDup (map Dict.id (students_db (snd (run rqs init)))) /\
  incl (map Dict.id (students_db (snd (run rqs init))))
       (created_ids (fst (run rqs init))).
Proof.
  destruct (created_ids_from rqs init) as [Hc Hn]. cbn [next_id init] in Hc, Hn.
  assert (E : created_ids (fst (run rqs init)) =
              map (fun k => PyInt (Z.of_nat k)) (seq 1 (count_creates rqs))).
  { rewrite Hc, <- seq_shift, map_map. apply map_ext. intro k. f_equal. lia. }
  pose proof (invariant_run rqs init invariant_init) as Hinv.
  split; [exact E|]. split; [|split].
  - rewrite E, <- (map_map Z.of_nat PyInt).
    apply NoDup_PyInt, NoDup_map_inj; [apply Nat2Z.inj | apply seq_NoDup].
  - now apply invariant_NoDup.
  - intros v Hv. apply in_map_iff in Hv as (s & <- & Hin).
    destruct Hinv as [Ht _ Hb _]. rewrite Forall_forall in Ht, Hb.
    rewrite (typed_id s (Ht s Hin)), E.
    specialize (Hb s Hin). cbv beta in Hb. rewrite Hn in Hb.
    apply in_map_iff. exists (Z.to_nat (id_num s)).
    split; [f_equal; lia|]. apply in_seq. lia.
Qed.

(** Creating three students, deleting the second and creating again gives
    the fourth id, not the freed one. *)
Example ids_after_delete :
  let c := StudentCreate.mk "Alice Smith" 22 "alice@example.com" "Mathematics" in
  created_ids
    (fst (run [POST_students c; POST_students c; POST_students c;
               DELETE_student 2; POST_students c] init)) =
  [PyInt 1; PyInt 2; PyInt 3; PyInt 4].
Proof. reflexivity. Qed.

(** ** Null attributes and failures *)

Lemma parse_without_nulls (b : StudentUpdate.body) :
  StudentUpdate.parse (StudentUpdate.without_nulls b) = StudentUpdate.parse b.
Proof.
  destruct b as [[| |n] [| |a] [| |e] [| |c]]; reflexivity.
Qed.

Lemma typed_no_None (d : Dict.t) (k : Dict.key) : typed d -> Dict.get k d <> PyNone.
Proof. intros []. destruct k; discriminate. Qed.

(** C9. In a reachable state, a body that carries nulls updates exactly as
    the same body without them; an attribute sent as null keeps its stored
    value; and after the update no stored dictionary holds [None] under
    any key. *)
Theorem update_student_null_is_absent
  (i : Z) (b : StudentUpdate.body) (st : state) :
  reachable st ->
  update_student i (StudentUpdate.parse b) st =
    update_student i (StudentUpdate.parse (StudentUpdate.without_nulls b)) st /\
  (forall s, In s (students_db st) -> Dict.id s = PyInt i ->
   exists s',
     fst (update_student i (StudentUpdate.parse b) st) = Return s' /\
     In s' (students_db (snd (update_student i (StudentUpdate.parse b) st))) /\
     (StudentUpdate.b_name b = StudentUpdate.Null -> Dict.name s' = Dict.name s) /\
     (StudentUpdate.b_age b = StudentUpdate.Null -> Dict.age s' = Dict.age s) /\
     (StudentUpdate.b_email b = StudentUpdate.Null -> Dict.email s' = Dict.email s) /\
     (StudentUpdate.b_course b = StudentUpdate.Null -> Dict.course s' = Dict.course s)) /\
  Forall (fun d => forall k, Dict.get k d <> PyNone)
         (students_db (snd (update_student i (StudentUpdate.parse b) st))).
Proof.
  intro Hr. split; [now rewrite parse_without_nulls|]. split.
  - intros s Hin Hid.
    apply reachable_invariant, invariant_NoDup in Hr.
    destruct (unique_split _ _ _ Hr Hin Hid) as (pre & post & Hdb & Hpre & _).
    destruct st as [db n]. simpl in *. subst db.
    rewrite (update_student_split i _ pre post s n Hpre Hid). simpl.
    exists (assigned (StudentUpdate.parse b) s).
    split; [reflexivity|].
    split; [apply in_or_app; right; now left|].
    destruct b as [bn ba be bc]. simpl.
    repeat split; intros ->;
      repeat match goal with
             | f : StudentUpdate.field _ |- _ => destruct f
             end; reflexivity.
  - apply reachable_invariant in Hr.
    pose proof (inv_typed _ (invariant_update i (StudentUpdate.parse b) st Hr)) as Ht.
    eapply Forall_impl; [|exact Ht]. intros d Hd k. now apply typed_no_None.
Qed.

(** C10. When [get_student], [update_student] or [delete_student] raises,
    the state it leaves is the state it was given, list and counter alike;
    the exception is the 404 one. *)
Theorem not_found_atomic
  (i : Z) (u : StudentUpdate.t) (st : state) (e : HTTPException) :
  (fst (get_student i st) = Raise e ->
   snd (get_student i st) = st /\ e = not_found) /\
  (fst (update_student i u st) = Raise e ->
   snd (update_student i u st) = st /\ e = not_found) /\
  (fst (delete_student i st) = Raise e ->
   snd (delete_student i st) = st /\ e = not_found).
Proof.
  rewrite get_student_eq, update_student_eq, delete_student_eq.
  destruct (lookup i (students_db st)) as [[r s]|]; simpl.
  - repeat split; discriminate.
  - assert (H : @Raise Dict.t not_found = Raise e -> st = st /\ e = not_found)
      by (intro H; now injection H).
    assert (H' : @Raise unit not_found = Raise e -> st = st /\ e = not_found)
      by (intro H'; now injection H').
    split; [exact H|]. split; [exact H|exact H'].
Qed.

(** The same at the routes: a request answered 404 leaves the state as it
    was. *)
Lemma status_404_state (rq : request) (st : state) :
  status (fst (app rq st)) = 404 -> snd (app rq st) = st.
Proof.
  destruct rq as [| |[|]| | | |]; cbn [app]; unfold limited, route;
    try rewrite get_student_eq; try rewrite update_student_eq;
    try rewrite delete_student_eq; try rewrite create_student_eq;
    try (simpl; discriminate);
    destruct (lookup student_id (students_db st)) as [[r s]|]; simpl;
    try discriminate; reflexivity.
Qed.

(** ** The theorems at concrete requests

    Alice (age 22) and Bob are created, in that order, from the initial
    state; the requests below are served in the state this leads to. *)

Lemma two_students_reachable : reachable two_students.
Proof. exists [POST_students alice; POST_students bob]. reflexivity. Defined.

Lemma update_student_age_verbatim_witness :
  exists s',
    fst (update_student 1 only_age two_students) = Return s' /\
    Dict.age s' = PyInt 22 /\
    fst (get_student 1 (snd (update_student 1 only_age two_students))) = Return s' /\
    fst (app (PUT_student 1 only_age) two_students) = mk_response 200 (One s').
Proof.
  apply (update_student_age_verbatim 1 only_age 22 two_students).
  - reflexivity.
  - exists alice_stored. split; [left; reflexivity | reflexivity].
Defined.

Lemma update_student_partial_witness :
  exists pre post s',
    students_db two_students = pre ++ alice_stored :: post /\
    update_student 1 only_course two_students =
      (Return s', mk_state (pre ++ s' :: post) (next_id two_students)) /\
    Dict.id s' = PyInt 1 /\
    Dict.name s' = PyStr "Alice Smith" /\
    Dict.age s' = PyInt 42 /\
    Dict.email s' = PyStr "alice@example.com" /\
    Dict.course s' = PyStr "Physics".
Proof.
  apply (update_student_partial 1 only_course alice_stored two_students).
  - exact two_students_reachable.
  - left. reflexivity.
  - reflexivity.
Defined.

Lemma delete_student_spec_witness :
  delete_student 9999 two_students =
    (Raise (mkHTTPException 404 "Student not found"), two_students) /\
  fst (app (DELETE_student 1) two_students) = mk_response 204 Empty /\
  fst (get_student 1 (snd (delete_student 1 two_students))) = Raise not_found.
Proof.
  destruct (delete_student_spec 9999 two_students two_students_reachable)
    as [Hmiss _].
  destruct (delete_student_spec 1 two_students two_students_reachable)
    as [_ Hhit].
  split.
  - apply Hmiss. intros s [<-|[<-|[]]]; discriminate.
  - destruct (Hhit alice_stored (or_introl eq_refl) eq_refl)
      as (pre & post & _ & _ & H204 & _ & Hget & _).
    split; [exact H204 | exact Hget].
Defined.

Lemma update_student_null_is_absent_witness :
  update_student 1 (StudentUpdate.parse null_name) two_students =
    update_student 1 (StudentUpdate.parse (StudentUpdate.without_nulls null_name))
                   two_students /\
  (exists s',
     fst (update_student 1 (StudentUpdate.parse null_name) two_students) = Return s' /\
     Dict.name s' = PyStr "Alice Smith") /\
  Forall (fun d => forall k, Dict.get k d <> PyNone)
         (students_db (snd (update_student 1 (StudentUpdate.parse null_name)
                                           two_students))).
Proof.
  destruct (update_student_null_is_absent 1 null_name two_students
              two_students_reachable) as (Hsame & Hkeep & Hnone).
  split; [exact Hsame|]. split; [|exact Hnone].
  destruct (Hkeep alice_stored (or_introl eq_refl) eq_refl)
    as (s' & Hret & _ & Hname & _).
  exists s'. split; [exact Hret | exact (Hname eq_refl)].
Defined.

Lemma not_found_atomic_witness :
  snd (get_student 9999 two_students) = two_students /\
  snd (update_student 9999 only_age two_students) = two_students /\
  snd (delete_student 9999 two_students) = two_students.
Proof.
  destruct (not_found_atomic 9999 only_age two_students not_found)
    as (Hg & Hu & Hd).
  split; [apply Hg; reflexivity|].
  split; [apply Hu; reflexivity | apply Hd; reflexivity].
Defined.

(** * Further properties of the handlers *)

(** ** Reading *)

(** X1. A sequence of GET requests ([/], [/health], [/students] whatever the
    limiter decides, [/students/{id}] found or not) leaves the list and the
    counter exactly as they were. *)
Theorem reads_keep_state (rqs : list request) (st : state) :
  forallb is_read rqs = true -> snd (run rqs st) = st.
Proof.
  revert st. induction rqs as [|rq rest IH]; intros st H; [reflexivity|].
  simpl in H. apply andb_prop in H as [Hrq Hrest].
  rewrite run_cons. cbn [snd]. rewrite app_state.
  destruct rq; try discriminate; try now apply IH.
  rewrite get_student_eq.
  destruct (lookup student_id (students_db st)) as [[r s]|]; now apply IH.
Qed.

Lemma reads_keep_state_witness :
  snd (run [GET_root; GET_students true; GET_student 1; GET_student 9999;
            GET_health; GET_students false] two_students) = two_students.
Proof. apply reads_keep_state. reflexivity. Defined.

(** X2. [test_read_root] passes in every state and changes none: the root
    route answers 200 with the welcome object whatever is stored. *)
Theorem test_read_root_passes (st : state) :
  test_read_root st = (Passed, st).
Proof. reflexivity. Qed.

(** X3. [test_create_student] fails in every state, at its third [assert]:
    the status, name, email, course and id checks hold, and the check that
    the returned age is the submitted one does not. *)
Theorem test_create_student_fails_on_age (st : state) :
  test_create_student_asserts st = [true; true; false; true; true; true] /\
  fst (test_create_student st) = AssertionError 3.
Proof. split; reflexivity. Qed.

(** ** Round trips *)

Lemma stored_cons (j : Z) (x : Dict.t) (l : list Dict.t) :
  stored j (x :: l) = if has_id j x then Some x else stored j l.
Proof.
  unfold stored. simpl. destruct (has_id j x); [reflexivity|].
  now destruct (lookup j l) as [[r s]|].
Qed.

Lemma stored_app (j : Z) (l1 l2 : list Dict.t) :
  stored j (l1 ++ l2) =
  match stored j l1 with
  | Some d => Some d
  | None => stored j l2
  end.
Proof.
  induction l1 as [|x l1 IH]; [reflexivity|].
  simpl. rewrite !stored_cons. now destruct (has_id j x).
Qed.

Lemma get_student_stored (j : Z) (st : state) :
  fst (get_student j st) =
  match stored j (students_db st) with
  | Some s => Return s
  | None => Raise not_found
  end.
Proof.
  rewrite get_student_eq. unfold stored.
  now destruct (lookup j (students_db st)) as [[r s]|].
Qed.

Lemma stored_None (j : Z) (db : list Dict.t) :
  stored j db = None <-> (forall s, In s db -> Dict.id s <> PyInt j).
Proof.
  rewrite <- lookup_None. unfold stored.
  destruct (lookup j db) as [[r s]|]; simpl; split; congruence.
Qed.

(** X4. In a reachable state, asking for the id that [create_student] has
    just handed out returns the dictionary it has just returned. *)
Theorem create_then_get (c : StudentCreate.t) (st : state) :
  reachable st ->
  exists new_student,
    fst (create_student c st) = Return new_student /\
    Dict.id new_student = PyInt (next_id st) /\
    fst (get_student (next_id st) (snd (create_student c st))) = Return new_student.
Proof.
  intro Hr. apply reachable_invariant in Hr.
  eexists. rewrite create_student_eq. cbn [fst snd].
  split; [reflexivity|]. split; [reflexivity|].
  rewrite get_student_stored. cbn [students_db]. rewrite stored_app.
  assert (Hno : stored (next_id st) (students_db st) = None).
  { apply stored_None. intros s Hin E.
    pose proof (inv_below _ Hr) as Hb. rewrite Forall_forall in Hb.
    specialize (Hb s Hin). unfold id_num in Hb. rewrite E in Hb. lia. }
  rewrite Hno, stored_cons. unfold has_id. simpl. now rewrite Z.eqb_refl.
Qed.

Lemma create_then_get_witness :
  exists new_student,
    fst (create_student alice two_students) = Return new_student /\
    Dict.id new_student = PyInt 3 /\
    fst (get_student 3 (snd (create_student alice two_students))) = Return new_student.
Proof. apply (create_then_get alice two_students), two_students_reachable. Defined.

(** X5. Whatever the state and the body, [get_student] right after
    [update_student] of the same id gives what the update gave: the updated
    dictionary, or the same 404. *)
Theorem update_then_get (i : Z) (u : StudentUpdate.t) (st : state) :
  fst (get_student i (snd (update_student i u st))) = fst (update_student i u st).
Proof.
  destruct (lookup i (students_db st)) as [[r s]|] eqn:L.
  - destruct (lookup_Some _ _ _ _ L) as (pre & post & Hdb & _ & Hid & Hpre).
    destruct st as [db n]. simpl in *. subst db.
    rewrite (update_student_split i u pre post s n Hpre Hid). cbn [fst snd].
    rewrite get_student_eq. cbn [students_db].
    rewrite lookup_split; [reflexivity | exact Hpre | now rewrite assigned_id].
  - rewrite (update_student_missing i u st L). cbn [fst snd].
    now rewrite get_student_eq, L.
Qed.

(** ** Updates composed *)

Lemma assigned_merge (u1 u2 : StudentUpdate.t) (s : Dict.t) :
  assigned (merge u1 u2) s = assigned u2 (assigned u1 s).
Proof.
  destruct u1 as [[n1|] [a1|] [e1|] [c1|]], u2 as [[n2|] [a2|] [e2|] [c2|]];
    reflexivity.
Qed.

(** X6. Two updates of one id in a row are one update with the merged
    body, in which the second body wins wherever it carries a value: same
    answer and same state, whether the id exists or not. *)
Theorem update_twice_is_merge (i : Z) (u1 u2 : StudentUpdate.t) (st : state) :
  update_student i u2 (snd (update_student i u1 st)) =
  update_student i (merge u1 u2) st.
Proof.
  destruct (lookup i (students_db st)) as [[r s]|] eqn:L.
  - destruct (lookup_Some _ _ _ _ L) as (pre & post & Hdb & _ & Hid & Hpre).
    destruct st as [db n]. simpl in *. subst db.
    rewrite !(update_student_split i _ pre post s n Hpre Hid). cbn [snd].
    rewrite update_student_split; [|exact Hpre | now rewrite assigned_id].
    now rewrite assigned_merge.
  - rewrite (update_student_missing i u1 st L). cbn [snd].
    now rewrite !(update_student_missing i _ st L).
Qed.

(** X7. An update with the empty body does what [get_student] does: it
    returns the stored dictionary, or raises 404, and writes nothing. *)
Theorem update_no_fields_is_get (i : Z) (st : state) :
  update_student i no_fields st = get_student i st.
Proof.
  rewrite get_student_eq.
  destruct (lookup i (students_db st)) as [[r s]|] eqn:L.
  - destruct (lookup_Some _ _ _ _ L) as (pre & post & Hdb & _ & Hid & Hpre).
    destruct st as [db n]. simpl in *. subst db.
    now rewrite (update_student_split i _ pre post s n Hpre Hid).
  - now apply update_student_missing.
Qed.

(** ** Deletes composed *)

Lemma delete_student_state (i : Z) (st : state) :
  snd (delete_student i st) =
  mk_state (filter (fun s => negb (has_id i s)) (students_db st)) (next_id st).
Proof.
  rewrite delete_student_eq.
  destruct (lookup i (students_db st)) as [[r s]|] eqn:L; [reflexivity|].
  destruct st as [db n]. simpl in *. f_equal. symmetry.
  apply filter_keeps, Forall_forall. now apply lookup_None.
Qed.

Lemma filter_comm (A : Type) (p q : A -> bool) (l : list A) :
  filter p (filter q l) = filter q (filter p l).
Proof.
  induction l as [|x l IH]; [reflexivity|]. simpl.
  destruct (p x) eqn:P, (q x) eqn:Q; simpl; rewrite ?P, ?Q, IH; reflexivity.
Qed.

(** X8. Deleting an id a second time raises 404 and changes nothing,
    whether the first delete found the id or not. *)
Theorem delete_twice_not_found (i : Z) (st : state) :
  delete_student i (snd (delete_student i st)) =
  (Raise not_found, snd (delete_student i st)).
Proof.
  rewrite delete_student_eq.
  assert (L : lookup i (students_db (snd (delete_student i st))) = None).
  { rewrite delete_student_state. cbn [students_db]. apply lookup_None.
    intros s Hin. apply filter_In in Hin as [_ Hs].
    apply has_id_false. now destruct (has_id i s). }
  now rewrite L.
Qed.

(** X9. Two deletes commute: either order leaves the same list and the
    same counter. *)
Theorem delete_commutes (i j : Z) (st : state) :
  snd (delete_student i (snd (delete_student j st))) =
  snd (delete_student j (snd (delete_student i st))).
Proof.
  rewrite !delete_student_state. cbn [students_db next_id].
  now rewrite filter_comm.
Qed.

(** ** Other ids *)

(** X10. Updating or deleting id [i] does not change what [get_student]
    answers for any other id. *)
Theorem other_ids_untouched (i j : Z) (u : StudentUpdate.t) (st : state) :
  i <> j ->
  fst (get_student j (snd (update_student i u st))) = fst (get_student j st) /\
  fst (get_student j (snd (delete_student i st))) = fst (get_student j st).
Proof.
  intro Hij. rewrite !get_student_stored. split.
  - destruct (lookup i (students_db st)) as [[r s]|] eqn:L.
    + destruct (lookup_Some _ _ _ _ L) as (pre & post & Hdb & _ & Hid & Hpre).
      destruct st as [db n]. simpl in *. subst db.
      rewrite (update_student_split i u pre post s n Hpre Hid).
      cbn [snd students_db]. rewrite !stored_app, !stored_cons.
      assert (E : forall x, Dict.id x = PyInt i -> has_id j x = false).
      { intros x Hx. apply has_id_false. rewrite Hx. congruence. }
      rewrite (E s Hid), (E (assigned u s)); [reflexivity|].
      now rewrite assigned_id.
    + now rewrite (update_student_missing i u st L).
  - rewrite delete_student_state. cbn [students_db].
    assert (E : stored j (filter (fun s => negb (has_id i s)) (students_db st)) =
                stored j (students_db st)); [|now rewrite E].
    induction (students_db st) as [|x l IH]; [reflexivity|].
    simpl. rewrite stored_cons.
    destruct (has_id i x) eqn:Hx; simpl.
    + apply has_id_true in Hx.
      assert (Hj : has_id j x = false)
        by (apply has_id_false; rewrite Hx; congruence).
      now rewrite Hj.
    + rewrite stored_cons. now destruct (has_id j x).
Qed.

Lemma other_ids_untouched_witness :
  fst (get_student 2 (snd (update_student 1 only_course two_students))) =
    fst (get_student 2 two_students) /\
  fst (get_student 2 (snd (delete_student 1 two_students))) =
    fst (get_student 2 two_students).
Proof. apply other_ids_untouched. discriminate. Defined.

(** X11. Creating a student does not change what [get_student] answers for
    any id other than the one being handed out. *)
Theorem create_keeps_others (j : Z) (c : StudentCreate.t) (st : state) :
  j <> next_id st ->
  fst (get_student j (snd (create_student c st))) = fst (get_student j st).
Proof.
  intro Hj. rewrite !get_student_stored, create_student_eq.
  cbn [snd students_db]. rewrite stored_app, stored_cons.
  assert (E : has_id j (Dict.mk (PyInt (next_id st)) (PyStr (StudentCreate.name c))
                         (PyInt (StudentCreate.age c + 20))
                         (PyStr (StudentCreate.email c))
                         (PyStr (StudentCreate.course c))) = false).
  { apply has_id_false. simpl. congruence. }
  rewrite E. now destruct (stored j (students_db st)).
Qed.

Lemma create_keeps_others_witness :
  fst (get_student 1 (snd (create_student bob two_students))) =
  fst (get_student 1 two_students).
Proof. apply create_keeps_others. discriminate. Defined.

(** ** The counter as a bound *)

(** X12. In a reachable state every stored id is an integer from 1 up to,
    but not including, [next_id]; for an id outside that range
    [get_student], [update_student] and [delete_student] all raise 404 and
    write nothing. *)
Theorem ids_within_counter (st : state) :
  reachable st ->
  (forall s, In s (students_db st) ->
   exists i, Dict.id s = PyInt i /\ 1 <= i < next_id st) /\
  (forall i u, i < 1 \/ next_id st <= i ->
   get_student i st = (Raise not_found, st) /\
   update_student i u st = (Raise not_found, st) /\
   delete_student i st = (Raise not_found, st)).
Proof.
  intro Hr. apply reachable_invariant in Hr. destruct Hr as [Ht _ Hb _].
  rewrite Forall_forall in Ht, Hb.
  assert (Hin : forall s, In s (students_db st) ->
                exists i, Dict.id s = PyInt i /\ 1 <= i < next_id st).
  { intros s Hs. exists (id_num s). split; [now apply typed_id, Ht | now apply Hb]. }
  split; [exact Hin|].
  intros i u Hout.
  assert (L : lookup i (students_db st) = None).
  { apply lookup_None. intros s Hs E.
    destruct (Hin s Hs) as (k & Hk & Hrange). rewrite Hk in E.
    injection E as ->. lia. }
  rewrite get_student_eq, update_student_eq, delete_student_eq, L. now repeat split.
Qed.

Lemma ids_within_counter_witness :
  get_student 0 two_students = (Raise not_found, two_students) /\
  update_student 3 only_age two_students = (Raise not_found, two_students) /\
  delete_student (-1) two_students = (Raise not_found, two_students).
Proof.
  destruct (ids_within_counter two_students two_students_reachable) as [_ H].
  split; [apply (H 0 only_age); left; reflexivity|].
  split; [apply (H 3 only_age); right; discriminate|].
  apply (H (-1) only_age). left. reflexivity.
Defined.

(** ** Counting *)

Lemma modify_at_length (i : nat) (f : Dict.t -> Dict.t) (db : list Dict.t) :
  List.length (modify_at i f db) = List.length db.
Proof.
  revert i. induction db as [|x rest IH]; intros [|j]; simpl; try reflexivity.
  now rewrite IH.
Qed.

Lemma app_length_log (rq : request) (st : state) :
  invariant st ->
  (List.length (students_db (snd (app rq st))) +
   count_deleted [(rq, fst (app rq st))] =
   List.length (students_db st) + count_creates [rq])%nat.
Proof.
  intro Hinv. destruct rq as [| |[|]| | | |]; try (simpl; lia).
  - cbn [app]. unfold route. rewrite get_student_eq.
    destruct (lookup student_id (students_db st)) as [[r s]|]; simpl; lia.
  - rewrite app_POST. cbv zeta. simpl. rewrite length_app. simpl. lia.
  - cbn [app]. unfold route. rewrite update_student_eq.
    destruct (lookup student_id (students_db st)) as [[r s]|]; simpl;
      [rewrite modify_at_length|]; lia.
  - cbn [app]. unfold route. rewrite delete_student_eq.
    destruct (lookup student_id (students_db st)) as [[r s]|] eqn:L;
      [|simpl; lia].
    destruct (lookup_Some _ _ _ _ L) as (pre & post & Hdb & _ & Hid & _).
    assert (Hin : In s (students_db st))
      by (rewrite Hdb; apply in_or_app; right; now left).
    destruct (unique_split _ _ _ (invariant_NoDup _ Hinv) Hin Hid)
      as (pre' & post' & Hdb' & Hpre' & Hpost').
    simpl. rewrite Hdb', filter_split by assumption.
    rewrite !length_app. simpl. lia.
Qed.

Lemma run_length_log (rqs : list request) (st : state) :
  invariant st ->
  (List.length (students_db (snd (run rqs st))) + count_deleted (fst (run rqs st)) =
   List.length (students_db st) + count_creates rqs)%nat.
Proof.
  revert st. induction rqs as [|rq rest IH]; intros st Hinv; [simpl; lia|].
  rewrite run_cons. cbn [fst snd].
  pose proof (IH _ (invariant_app rq st Hinv)) as IH'.
  pose proof (app_length_log rq st Hinv) as Hstep.
  assert (Hd : count_deleted ((rq, fst (app rq st)) :: fst (run rest (snd (app rq st)))) =
               (count_deleted [(rq, fst (app rq st))] +
                count_deleted (fst (run rest (snd (app rq st)))))%nat).
  { destruct rq; try reflexivity. cbn [count_deleted].
    now destruct (status (fst (app (DELETE_student student_id) st)) =? 204). }
  assert (Hc : count_creates (rq :: rest) =
               (count_creates [rq] + count_creates rest)%nat)
    by (destruct rq; reflexivity).
  rewrite Hd, Hc. lia.
Qed.

(** X13. After any requests from the start, the number of stored students
    is the number of create requests minus the number of delete requests
    that were answered 204: every create adds one dictionary, every
    successful delete removes exactly one, nothing else changes the
    count. *)
Theorem stored_count (rqs : list request) :
  (List.length (students_db (snd (run rqs init))) +
   count_deleted (fst (run rqs init)) = count_creates rqs)%nat.
Proof. now rewrite (run_length_log rqs init invariant_init). Qed.

(** ** Responses and their types *)

Lemma app_conforms (rq : request) (st : state) :
  invariant st -> conforms (body (fst (app rq st))).
Proof.
  intro Hinv. pose proof (inv_typed _ Hinv) as Ht.
  destruct rq as [| |[|]| | | |]; try exact I.
  - exact Ht.
  - cbn [app]. unfold route. rewrite get_student_eq.
    destruct (lookup student_id (students_db st)) as [[r s]|] eqn:L; [|exact I].
    destruct (lookup_Some _ _ _ _ L) as (pre & post & Hdb & _).
    simpl. rewrite Forall_forall in Ht. apply Ht.
    rewrite Hdb. apply in_or_app. right. now left.
  - rewrite app_POST. simpl. constructor.
  - cbn [app]. unfold route. rewrite update_student_eq.
    destruct (lookup student_id (students_db st)) as [[r s]|] eqn:L; [|exact I].
    destruct (lookup_Some _ _ _ _ L) as (pre & post & Hdb & _).
    simpl. apply assigned_typed.
    rewrite Forall_forall in Ht. apply Ht.
    rewrite Hdb. apply in_or_app. right. now left.
  - cbn [app]. unfold route. rewrite delete_student_eq.
    now destruct (lookup student_id (students_db st)) as [[r s]|].
Qed.

(** X14. Whatever requests are served from the start, every student
    object in every response (the one of a get, create or update, each one
    of a list) holds an integer under ["id"] (never [None]), a string
    under ["name"], ["email"] and ["course"], and an integer under
    ["age"]. *)
Theorem responses_conform (rqs : list request) :
  Forall (fun entry => conforms (body (snd entry))) (fst (run rqs init)).
Proof.
  assert (H : forall st, invariant st ->
              Forall (fun entry => conforms (body (snd entry))) (fst (run rqs st))).
  { induction rqs as [|rq rest IH]; intros st Hinv; [constructor|].
    rewrite run_cons. cbn [fst]. constructor.
    - now apply app_conforms.
    - now apply IH, invariant_app. }
  apply H, invariant_init.
Qed.

(** ** Status codes *)


(** * The limit on the list route *)











(** Six calls in six seconds, then one more than a minute after the
    first: the sixth is refused, the late one passes again. *)
Example list_route_after_a_minute :
  list_statuses "10.0.0.1"
    (fst (serve_all
            (map (fun t => mk_call "10.0.0.1" t ListStudents) [0; 1; 2; 3; 4; 5; 70])
            start)) =
  [200; 200; 200; 200; 200; 429; 200].
Proof. reflexivity. Qed.
